(** * Extra/convert.py: exporting pretrained weights, one directory per tensor

    A shallow embedding of [dissect] and [main] of [Extra/convert.py] and the
    properties of the exported artefacts that follow from the code. *)

From Stdlib Require Import ZArith Lia Bool Ascii.
From stdpp Require Import gmap strings list fin_maps.

(** ** Python [str] operations used by the script *)

Module PyStr.

(** [s.startswith(p)] *)
Fixpoint startswith (p s : string) : bool :=
  match p, s with
  | EmptyString, _ => true
  | String _ _, EmptyString => false
  | String a p', String b s' => if Ascii.eqb a b then startswith p' s' else false
  end.

(** [sub in s] on two [str]: [sub] occurs in [s] as a contiguous block. *)
Fixpoint contains (sub s : string) : bool :=
  startswith sub s ||
  match s with
  | EmptyString => false
  | String _ s' => contains sub s'
  end.

(** [s.replace(old, new)], scanning from the left; the occurrences replaced
    do not overlap.  [skip] counts the characters of the occurrence found
    last that are still to be passed over. *)
Fixpoint replace_from (old new s : string) (skip : nat) : string :=
  match s with
  | EmptyString =>
      match old with EmptyString => new | _ => EmptyString end
  | String c s' =>
      match skip with
      | S k => replace_from old new s' k
      | O =>
          if startswith old s then
            match old with
            | EmptyString => new +:+ String c (replace_from old new s' 0)
            | String _ old' => new +:+ replace_from old new s' (String.length old')
            end
          else String c (replace_from old new s' 0)
      end
  end.

Definition replace (old new s : string) : string := replace_from old new s 0.

(** [s.removeprefix(p)]: the removal of a leading [p] only, which is how
    the specification words the renaming of keys; the script does not call
    it. *)
Fixpoint strip (p s : string) : option string :=
  match p, s with
  | EmptyString, _ => Some s
  | String _ _, EmptyString => None
  | String a p', String b s' => if Ascii.eqb a b then strip p' s' else None
  end.

Definition removeprefix (p s : string) : string :=
  match strip p s with
  | Some r => r
  | None => s
  end.

End PyStr.

(** ** The ordered [dict] of Python, with [str] keys *)

Module PyDict.
Section Dict.
Context {V : Type}.

(** Entries in insertion order; a [dict] holds each key once. *)
Definition keys (d : list (string * V)) : list string := map fst d.

(** [d[k]] *)
Fixpoint get (k : string) (d : list (string * V)) : option V :=
  match d with
  | [] => None
  | (k', v') :: d' => if String.eqb k' k then Some v' else get k d'
  end.

(** [d[k] = v]: a key already present keeps its position and takes the
    new value, a new key goes to the end. *)
Fixpoint set (k : string) (v : V) (d : list (string * V)) : list (string * V) :=
  match d with
  | [] => [(k, v)]
  | (k', v') :: d' =>
      if String.eqb k' k then (k', v) :: d' else (k', v') :: set k v d'
  end.
End Dict.
End PyDict.

(** ** [pathlib] on a POSIX host *)

Module PathLib.

(** A path is the tuple [PurePosixPath.parts]: the anchor (["/"] or
    ["//"]) first when the path is absolute, then one string per segment. *)
Definition path := list string.

(** [s.split(sep)] for a one-character separator. *)
Fixpoint split (sep : ascii) (s : string) : list string :=
  match s with
  | EmptyString => [EmptyString]
  | String c s' =>
      if Ascii.eqb c sep then EmptyString :: split sep s'
      else match split sep s' with
           | [] => [String c EmptyString]
           | w :: ws => String c w :: ws
           end
  end.

Fixpoint leading (c : ascii) (s : string) : nat :=
  match s with
  | EmptyString => 0
  | String a s' => if Ascii.eqb a c then S (leading c s') else 0
  end.

(** POSIX keeps exactly two leading slashes apart from one or from three
    and more. *)
Definition anchor (s : string) : list string :=
  match leading "/"%char s with
  | 0 => []
  | 2 => ["//"]
  | _ => ["/"]
  end.

Definition is_segment (s : string) : bool :=
  negb (String.eqb s "") && negb (String.eqb s ".").

(** Empty segments and ["."] segments are dropped, [".."] is kept. *)
Definition segments (s : string) : list string :=
  filter (fun x => is_segment x = true) (split "/"%char s).

(** [PurePosixPath(s)] *)
Definition Path (s : string) : path := anchor s ++ segments s.

Definition is_absolute (s : string) : bool :=
  match anchor s with [] => false | _ => true end.

(** [p / s]: an absolute right operand replaces the left one. *)
Definition joinpath (p : path) (s : string) : path :=
  if is_absolute s then Path s else p ++ segments s.

End PathLib.

Notation "p // s" := (PathLib.joinpath p s) (at level 40, left associativity).

(** ** Tensors and the [numpy] conversion *)

Module Numpy.

Local Open Scope Z_scope.

(** The element types that [Tensor.numpy()] hands over to numpy. *)
Inductive torch_dtype :=
| float16 | float32 | float64
| uint8 | int8 | int16 | int32 | int64 | bool_.


(** The value of one element: [(-1)^neg * m * 2^e], an infinity or a NaN.
    An integer [n] is [Finite (n <? 0) |n| 0].  NaN payloads are not kept. *)
Inductive scalar :=
| Finite (neg : bool) (m : Z) (e : Z)
| Infinity (neg : bool)
| NaN.

(** A tensor: its element type, [data.shape], and its elements in logical
    index order, the last index running fastest. *)
Record Tensor := {
  t_dtype : torch_dtype;
  t_shape : list nat;
  t_data : list scalar
}.

Definition numel (shape : list nat) : nat := fold_right Nat.mul 1%nat shape.

(** Every tensor holds as many elements as its shape says. *)
Definition well_formed (t : Tensor) : Prop :=
  length (t_data t) = numel (t_shape t) :> nat.

(** The two target types of the script. *)
Inductive np_dtype := f2 | f4.

Definition np_dtype_eqb (a b : np_dtype) : bool :=
  match a, b with
  | f2, f2 | f4, f4 => true
  | _, _ => false
  end.

Definition itemsize (d : np_dtype) : nat :=
  match d with f2 => 2%nat | f4 => 4%nat end.

(** IEEE-754 binary interchange formats: [prec] significand bits with the
    hidden one, [ebits] exponent bits. *)
Definition prec (d : np_dtype) : Z := match d with f2 => 11 | f4 => 24 end.
Definition ebits (d : np_dtype) : Z := match d with f2 => 5 | f4 => 8 end.
Definition emin (d : np_dtype) : Z := 2 - 2 ^ (ebits d - 1).
Definition inf_bits (d : np_dtype) : Z := (2 ^ ebits d - 1) * 2 ^ (prec d - 1).
Definition sign_bit (d : np_dtype) (neg : bool) : Z :=
  if neg then 2 ^ (ebits d + prec d - 1) else 0.

(** [m / 2^k] rounded to the nearest integer, ties to even ([0 < k]). *)
Definition rne_shift (m k : Z) : Z :=
  let q := Z.shiftr m k in
  let r := Z.land m (Z.ones k) in
  let h := Z.shiftl 1 (k - 1) in
  if r <? h then q
  else if h <? r then q + 1
  else if Z.even q then q else q + 1.

(** Bit pattern of the magnitude [m * 2^e] ([0 <= m]) rounded to nearest
    even in format [d]; what exceeds the largest finite value becomes the
    infinity. *)
Definition round_magnitude (d : np_dtype) (m e : Z) : Z :=
  if m <=? 0 then 0
  else
    let E := Z.max (e + Z.log2 m) (emin d) in
    let q := E - (prec d - 1) in
    let M := if q <=? e then Z.shiftl m (e - q) else rne_shift m (q - e) in
    Z.min ((E - emin d) * 2 ^ (prec d - 1) + M) (inf_bits d).

(** The cast of [ndarray.astype] on one element, as a bit pattern. *)
Definition cast (d : np_dtype) (x : scalar) : Z :=
  match x with
  | Finite neg m e => sign_bit d neg + round_magnitude d m e
  | Infinity neg => sign_bit d neg + inf_bits d
  | NaN => inf_bits d + 2 ^ (prec d - 2)
  end.

Record ndarray := {
  nd_dtype : np_dtype;
  nd_shape : list nat;
  nd_items : list Z
}.

(** [data.numpy().astype(dtype, order='C')] *)
Definition astype (dtype : np_dtype) (data : Tensor) : ndarray :=
  {| nd_dtype := dtype;
     nd_shape := t_shape data;
     nd_items := map (cast dtype) (t_data data) |}.

Inductive byteorder := little | big.

(** The [n] low bytes of [x], least significant first. *)
Fixpoint le_bytes (n : nat) (x : Z) : list Z :=
  match n with
  | O => []
  | S n' => Z.land x 255 :: le_bytes n' (Z.shiftr x 8)
  end.

(** One item in memory, in the byte order of the host. *)
Definition item_bytes (native : byteorder) (n : nat) (x : Z) : list Z :=
  match native with
  | little => le_bytes n x
  | big => rev (le_bytes n x)
  end.

(** [a.tobytes()]: the items in C order, nothing before, between or after. *)
Definition tobytes (native : byteorder) (a : ndarray) : list Z :=
  flat_map (item_bytes native (itemsize (nd_dtype a))) (nd_items a).

End Numpy.

(** ** Files, standard output and exceptions *)

Module Os.
Import PathLib.

(** [json.dumps] writes the text of such a value; the files keep the value. *)
#[warnings="-register-all"]
Inductive json :=
| JStr (s : string)
| JInt (n : Z)
| JBool (b : bool)
| JList (l : list json)
| JObj (members : list (string * json)).

Inductive content :=
| Text (j : json)
| Binary (bytes : list Z).

Inductive node :=
| Dir
| File (c : content).

(** What is in the file system, by lexical path: [".."] is an ordinary
    segment, permissions are not represented. *)
Record world := {
  fs : gmap (list string) node;
  stdout : list string
}.

Inductive exn :=
| IndexError
| FileExistsError
| NotADirectoryError
| IsADirectoryError
| LoadError.

Inductive result (A : Type) :=
| Returned (a : A)
| Raised (e : exn).
Arguments Returned {A} a.
Arguments Raised {A} e.

(** A statement runs in a world and either returns or raises; what it did
    before raising stays done. *)
Definition io (A : Type) : Type := world -> world * result A.

Definition ret {A} (a : A) : io A := fun w => (w, Returned a).
Definition raise {A} (e : exn) : io A := fun w => (w, Raised e).
Definition bind {A B} (c : io A) (k : A -> io B) : io B :=
  fun w =>
    match c w with
    | (w', Returned a) => k a w'
    | (w', Raised e) => (w', Raised e)
    end.

#[global] Instance io_ret : MRet io := @ret.
#[global] Instance io_bind : MBind io := fun A B k c => bind c k.

Definition print (line : string) : io unit :=
  fun w => ({| fs := fs w; stdout := stdout w ++ [line] |}, Returned tt).

(** [os.makedirs(p, exist_ok=True)], from the directory [done] downwards:
    missing directories are made, existing ones accepted, a file in the way
    raises. *)
Fixpoint makedirs_from (done : path) (rest : list string)
    (m : gmap (list string) node) : gmap (list string) node * result unit :=
  match rest with
  | [] => (m, Returned tt)
  | seg :: rest' =>
      let p := done ++ [seg] in
      match m !! p with
      | Some (File _) =>
          (m, Raised (match rest' with
                      | [] => FileExistsError
                      | _ => NotADirectoryError
                      end))
      | Some Dir => makedirs_from p rest' m
      | None => makedirs_from p rest' (<[p := Dir]> m)
      end
  end.

Definition makedirs (p : path) : io unit :=
  fun w =>
    let (m, r) := makedirs_from [] p (fs w) in
    ({| fs := m; stdout := stdout w |}, r).

(** [with open(p, mode) as f: f.write(c)] for a mode that truncates, under a
    directory that exists. *)
Definition write_file (p : path) (c : content) : io unit :=
  fun w =>
    match fs w !! p with
    | Some Dir => (w, Raised IsADirectoryError)
    | _ => ({| fs := <[p := File c]> (fs w); stdout := stdout w |}, Returned tt)
    end.

(** [for x in xs: body(x)] *)
Fixpoint for_each {A} (xs : list A) (body : A -> io unit) : io unit :=
  match xs with
  | [] => ret tt
  | x :: xs' => body x ;; for_each xs' body
  end.

End Os.

(** ** The script *)

Module Convert.
Import PyStr PyDict PathLib Numpy Os.

Section Script.

(** [os.path.dirname(__file__)] *)
Variable script_dir : string.
(** [sys.byteorder] *)
Variable native : byteorder.
(** [load_state_dict_hf]: what [torch.load] returns for the file that
    [cached_file] resolves, or what it raises. *)
Variable load_state_dict_hf : string -> result (list (string * Tensor)).

(** [new_key = key.replace('backbone.', '')] *)
Definition new_key (key : string) : string := replace "backbone." "" key.

(** The loop of [dissect]: [new_state_dict[new_key] = state_dict[key]]
    for every key in turn. *)
Definition rename_keys (state_dict : list (string * Tensor))
  : list (string * Tensor) :=
  fold_left
    (fun new_state_dict '(key, t) => PyDict.set (new_key key) t new_state_dict)
    state_dict [].

Definition dissect (pretrained_model_name : string)
  : io (list (string * Tensor)) :=
  match load_state_dict_hf pretrained_model_name with
  | Returned state_dict => ret (rename_keys state_dict)
  | Raised e => raise e
  end.

Definition markers : list string :=
  ["embedding"; "lm_head"; "in_proj"; "out_proj"; "x_proj"].

(** ['f2' if any([x in key for x in [...]]) else 'f4'] *)
Definition select_dtype (key : string) : np_dtype :=
  if existsb (fun x => contains x key) markers then f2 else f4.

Definition foldername (model_name key : string) : path :=
  Path script_dir // "converted" // model_name // key.

Definition metadata (key : string) (data : Tensor) (dtype : np_dtype) : json :=
  JObj [("key", JStr key);
        ("shape", JList (map (fun n => JInt (Z.of_nat n)) (t_shape data)));
        ("is16bit", JBool (np_dtype_eqb dtype f2))].

(** The body of the loop of [main] for one key. *)
Definition export_tensor (model_name key : string) (data : Tensor) : io unit :=
  let folder := foldername model_name key in
  makedirs folder ;;
  let dtype := select_dtype key in
  let np_data := astype dtype data in
  let bytes := tobytes native np_data in
  write_file (folder ++ ["metadata.json"]) (Text (metadata key data dtype)) ;;
  write_file (folder ++ ["weights.bin"]) (Binary bytes).


Definition usage : string :=
  "Please provide one of: mamba-130m, mamba-370m, mamba-790m, mamba-1.4b, mamba-2.8b.".

(** [main]: [sys.argv] is [argv]; [sys.argv[1]] raises [IndexError] when
    there is no such item.  The list [lens] is filled and never read, so it is
    left out.  The loop runs over the keys of the dictionary in order and
    stops at the first exception. *)
Definition main (argv : list string) : io (option Z) :=
  if (length argv <? 1)%nat then
    print usage ;; ret (Some (-1)%Z)
  else
    match argv !! 1%nat with
    | None => raise IndexError
    | Some model_name =>
        print ("Model to convert: " +:+ model_name) ;;
        state_dict ← dissect ("state-spaces/" +:+ model_name) ;
        for_each state_dict
          (fun '(key, data) => export_tensor model_name key data) ;;
        ret None
    end.

(** [if __name__ == "__main__": main()]: the value of [main()] is dropped;
    the interpreter exits with 0, or with 1 after a traceback when an
    exception went uncaught. *)
Definition run (argv : list string) (w : world) : world * Z :=
  match main argv w with
  | (w', Returned _) => (w', 0%Z)
  | (w', Raised _) => (w', 1%Z)
  end.

End Script.

End Convert.

(** ** Words for what lies in the file system *)

Module Layout.
Import PyStr PathLib Os.

(** A key that [pathlib] takes as one segment. *)
Definition plain_key (key : string) : Prop :=
  contains "/" key = false /\ key <> "" /\ key <> ".".

(** A part of a path as [pathlib] keeps it: an anchor, or a segment that
    holds no ["/"] and is neither empty nor ["."]. *)
Definition proper_part (p : string) : Prop :=
  p = "/" \/ p = "//" \/ plain_key p.

(** The directories that [makedirs_from done rest] passes through: [done]
    with one, two, ... and at last all of the segments of [rest]. *)
Definition on_way (done rest q : path) : Prop :=
  exists k : nat, (k < length rest)%nat /\ q = done ++ take (S k) rest.


End Layout.

(** ** Inputs to run the script on *)

Module Samples.
Import Numpy Os.

(** A 3 by 4 tensor of [float32] holding 0.25, 0.5, ..., 3.0. *)
Definition embedding_weight : Tensor :=
  {| t_dtype := float32; t_shape := [3; 4]%nat;
     t_data := map (fun n => Finite false n (-2))
                 [1; 2; 3; 4; 5; 6; 7; 8; 9; 10; 11; 12]%Z |}.

(** A tensor of [int64] holding 16777217 and -3. *)
Definition counters : Tensor :=
  {| t_dtype := int64; t_shape := [2]%nat;
     t_data := [Finite false 16777217 0; Finite true 3 0] |}.

(** Nothing on disk, nothing printed. *)
Definition fresh : world := {| fs := ∅; stdout := [] |}.

(** A checkpoint in which two names are renamed to the same key. *)
Definition colliding (name : string) : result (list (string * Tensor)) :=
  Returned [("backbone.norm_f.weight", embedding_weight);
            ("norm_f.weight", counters)].

(** A checkpoint of three tensors with plain names. *)
Definition checkpoint (name : string) : result (list (string * Tensor)) :=
  Returned [("backbone.embedding.weight", embedding_weight);
            ("backbone.norm_f.weight", embedding_weight);
            ("lm_head.weight", counters)].

(** A model that cannot be loaded. *)
Definition missing (name : string) : result (list (string * Tensor)) :=
  Raised LoadError.

(** A file where the directory of the model should go. *)
Definition blocked : world :=
  {| fs := {[ ["converted"; "mamba-130m"] := File (Binary []) ]}; stdout := [] |}.

(** A file where the folder of the second tensor of [checkpoint] should go. *)
Definition half_blocked : world :=
  {| fs := {[ ["converted"; "mamba-130m"; "norm_f.weight"] := File (Binary []) ]};
     stdout := [] |}.

(** A directory where [weights.bin] should go. *)
Definition occupied : world :=
  {| fs := {[ ["converted"; "mamba-130m"; "norm.weight"; "weights.bin"] := Dir ]};
     stdout := [] |}.

End Samples.

(** * Properties *)

(** ** Strings *)

Module PyStrFacts.
Import PyStr.

Lemma app_cons c s t : String c s +:+ t = String c (s +:+ t).
Proof. reflexivity. Qed.

Lemma app_empty_l s : "" +:+ s = s.
Proof. reflexivity. Qed.

Lemma app_length s t :
  String.length (s +:+ t) = (String.length s + String.length t)%nat.
Proof. induction s as [|c s IH]; [reflexivity|]. rewrite app_cons. simpl. lia. Qed.

Lemma startswith_app p r : startswith p (p +:+ r) = true.
Proof.
  induction p as [|a p IH]; [reflexivity|].
  rewrite app_cons. simpl. rewrite Ascii.eqb_refl. exact IH.
Qed.

Lemma startswith_spec p s : startswith p s = true <-> exists r, s = p +:+ r.
Proof.
  split.
  - revert s. induction p as [|a p IH]; intros s H.
    + exists s. reflexivity.
    + destruct s as [|b s]; [discriminate|]. simpl in H.
      destruct (Ascii.eqb_spec a b) as [->|]; [|discriminate].
      destruct (IH _ H) as [r ->]. exists r. reflexivity.
  - intros [r ->]. apply startswith_app.
Qed.

Lemma contains_cons sub c s :
  contains sub (String c s) = startswith sub (String c s) || contains sub s.
Proof. reflexivity. Qed.

Lemma contains_app sub pre post : contains sub (pre +:+ sub +:+ post) = true.
Proof.
  induction pre as [|c pre IH].
  - rewrite app_empty_l.
    assert (H : startswith sub (sub +:+ post) = true) by apply startswith_app.
    destruct (sub +:+ post); simpl in *; rewrite H; reflexivity.
  - rewrite app_cons, contains_cons, IH. apply orb_true_r.
Qed.

(** [sub in s] holds exactly when [s] is some text, then [sub], then some
    text. *)
Lemma contains_spec sub s :
  contains sub s = true <-> exists pre post, s = pre +:+ sub +:+ post.
Proof.
  split.
  - induction s as [|c s IH]; intros H.
    + simpl in H. rewrite orb_false_r in H.
      apply startswith_spec in H as [r Hr]. exists "", r. exact Hr.
    + rewrite contains_cons in H. apply orb_true_iff in H as [H|H].
      * apply startswith_spec in H as [r Hr]. exists "", r. exact Hr.
      * destruct (IH H) as (pre & post & ->). exists (String c pre), post.
        reflexivity.
  - intros (pre & post & ->). apply contains_app.
Qed.

Lemma contains_false_cons sub c s :
  contains sub (String c s) = false ->
  startswith sub (String c s) = false /\ contains sub s = false.
Proof. rewrite contains_cons. apply orb_false_iff. Qed.

End PyStrFacts.

(** ** Key renaming and the choice of precision *)

Module RenameFacts.
Import PyStr PyStrFacts Numpy Convert.

Local Abbreviation prefix := "backbone.".

Lemma new_key_prefix r : new_key (prefix +:+ r) = new_key r.
Proof. reflexivity. Qed.

Lemma replace_from_cons old new c s :
  replace_from old new (String c s) 0 =
  if startswith old (String c s) then
    match old with
    | EmptyString => new +:+ String c (replace_from old new s 0)
    | String _ old' => new +:+ replace_from old new s (String.length old')
    end
  else String c (replace_from old new s 0).
Proof. reflexivity. Qed.

Lemma new_key_cons c s :
  startswith prefix (String c s) = false ->
  new_key (String c s) = String c (new_key s).
Proof.
  intros H. unfold new_key, replace. rewrite replace_from_cons.
  rewrite H. reflexivity.
Qed.

Lemma new_key_absent n : contains prefix n = false -> new_key n = n.
Proof.
  induction n as [|c n IH]; intros H; [reflexivity|].
  apply contains_false_cons in H as [Hs Hc].
  rewrite new_key_cons by exact Hs. f_equal. exact (IH Hc).
Qed.

(** The prefix ends in its only ["."], so an occurrence that begins before
    another one lies wholly before it. *)
Lemma startswith_cons_inv a p b s :
  startswith (String a p) (String b s) = true -> a = b /\ startswith p s = true.
Proof.
  simpl. destruct (Ascii.eqb_spec a b); [tauto|discriminate].
Qed.

Lemma startswith_before pre post :
  pre <> "" ->
  startswith prefix (pre +:+ prefix +:+ post) = true ->
  startswith prefix pre = true.
Proof.
  intros Hne H.
  destruct pre as [|c1 [|c2 [|c3 [|c4 [|c5 [|c6 [|c7 [|c8 [|c9 pre]]]]]]]]];
    [congruence|..]; clear Hne;
    rewrite ?app_cons, ?app_empty_l in H;
    repeat (let E := fresh "E" in
            apply startswith_cons_inv in H as [E H];
            try discriminate E; subst).
  reflexivity.
Qed.

Lemma replace_from_length old s k :
  (String.length (replace_from old "" s k) <= String.length s)%nat.
Proof.
  revert k. induction s as [|c s IH]; intros k.
  - destruct old; simpl; lia.
  - destruct k as [|k]; [|simpl; specialize (IH k); lia].
    rewrite replace_from_cons.
    destruct (startswith old (String c s)).
    + destruct old as [|a old]; rewrite app_empty_l.
      * simpl. specialize (IH 0%nat). lia.
      * simpl. specialize (IH (String.length old)). lia.
    + simpl. specialize (IH 0%nat). lia.
Qed.

Lemma new_key_shorter s :
  contains prefix s = true -> (String.length (new_key s) < String.length s)%nat.
Proof.
  induction s as [|c s IH]; intros H; [discriminate|].
  rewrite contains_cons in H.
  destruct (startswith prefix (String c s)) eqn:Hs.
  - unfold new_key, replace. rewrite replace_from_cons. rewrite Hs.
    rewrite app_empty_l.
    pose proof (replace_from_length prefix s (String.length "ackbone.")) as L.
    change (String.length (String c s)) with (S (String.length s)).
    lia.
  - simpl in H. rewrite new_key_cons by exact Hs. simpl. specialize (IH H). lia.
Qed.

Lemma strip_spec p s r : strip p s = Some r -> s = p +:+ r.
Proof.
  revert s. induction p as [|a p IH]; intros s H.
  - simpl in H. injection H as ->. reflexivity.
  - destruct s as [|b s]; simpl in H; [discriminate|].
    destruct (Ascii.eqb_spec a b) as [->|]; [|discriminate].
    rewrite app_cons. f_equal. exact (IH _ H).
Qed.

Lemma new_key_after pre post :
  contains prefix pre = false ->
  new_key (pre +:+ prefix +:+ post) = pre +:+ new_key post.
Proof.
  induction pre as [|c pre IH]; intros H; [reflexivity|].
  pose proof H as [Hs Hc]%contains_false_cons.
  change (new_key (String c (pre +:+ prefix +:+ post)) =
          String c (pre +:+ new_key post)).
  rewrite new_key_cons.
  - rewrite IH by exact Hc. reflexivity.
  - destruct (startswith prefix (String c (pre +:+ prefix +:+ post))) eqn:E;
      [|reflexivity].
    change (String c (pre +:+ prefix +:+ post))
      with (String c pre +:+ prefix +:+ post) in E.
    apply startswith_before in E; congruence.
Qed.

(** C1, as the code has it: [new_key] removes every occurrence of
    ["backbone."], scanning from the left, and not the leading one only.  A
    name in which nothing but a leading ["backbone."] occurs comes back with
    that prefix removed, and unchanged when it has none; in
    [pre + "backbone." + post], where [pre] holds no occurrence, the
    occurrence after [pre] is removed as well and [post] is renamed in
    turn. *)
Theorem new_key_removes_every_occurrence (n pre post : string) :
  (contains "backbone." (removeprefix "backbone." n) = false ->
   new_key n = removeprefix "backbone." n) /\
  (contains "backbone." pre = false ->
   new_key (pre +:+ "backbone." +:+ post) = pre +:+ new_key post).
Proof.
  split; [|apply new_key_after].
  unfold removeprefix. destruct (strip prefix n) as [r|] eqn:E; intros H.
  - apply strip_spec in E as ->. rewrite new_key_prefix. apply new_key_absent, H.
  - apply new_key_absent, H.
Qed.

Lemma new_key_removes_every_occurrence_witness :
  new_key "backbone.layers.0.norm.weight" = "layers.0.norm.weight" /\
  new_key ("a." +:+ "backbone." +:+ "b") = "a." +:+ new_key "b".
Proof.
  split.
  - apply (new_key_removes_every_occurrence "backbone.layers.0.norm.weight" "" "").
    reflexivity.
  - apply (new_key_removes_every_occurrence "" "a." "b"). reflexivity.
Defined.

(** C1 as stated fails: an occurrence that is not at the start is removed
    too, and so is a second occurrence behind a leading one. *)
Lemma new_key_inner_occurrence :
  startswith "backbone." "a.backbone.b" = false /\
  new_key "a.backbone.b" = "a.b" /\
  new_key "a.backbone.b" <> removeprefix "backbone." "a.backbone.b" /\
  new_key "backbone.backbone.x" = "x" /\
  new_key "backbone.backbone.x" <> removeprefix "backbone." "backbone.backbone.x".
Proof. repeat split; try reflexivity; discriminate. Qed.

(** C4, as the code has it: renaming a renamed key changes nothing exactly
    when the renamed key holds no ["backbone."]; the removal of an occurrence
    can join the text around it into a new one. *)
Theorem new_key_idempotent_iff (n : string) :
  new_key (new_key n) = new_key n <-> contains "backbone." (new_key n) = false.
Proof.
  split.
  - intros H. destruct (contains prefix (new_key n)) eqn:E; [|reflexivity].
    apply new_key_shorter in E. rewrite H in E. lia.
  - apply new_key_absent.
Qed.

(** C4 as stated fails: the second renaming removes the occurrence that the
    first one put together. *)
Lemma new_key_not_idempotent :
  new_key "backbackbone.bone.w" = "backbone.w" /\
  new_key (new_key "backbackbone.bone.w") = "w" /\
  new_key (new_key "backbackbone.bone.w") <> new_key "backbackbone.bone.w".
Proof. repeat split; discriminate. Qed.

(** C3: the script picks ['f2'], and records [is16bit = true], exactly for
    the keys in which one of the five markers occurs somewhere, with the
    same letter case, and picks ['f4'] with [is16bit = false] for every
    other string. *)
Theorem select_dtype_spec (s : string) :
  let marked :=
    exists m pre post : string,
      (m = "embedding" \/ m = "lm_head" \/ m = "in_proj" \/
       m = "out_proj" \/ m = "x_proj") /\
      s = pre +:+ m +:+ post in
  (select_dtype s = f2 <-> marked) /\
  (select_dtype s = f4 <-> ~ marked) /\
  (np_dtype_eqb (select_dtype s) f2 = true <-> marked).
Proof.
  intros marked.
  assert (M : existsb (fun x => contains x s) markers = true <-> marked).
  { rewrite existsb_exists. unfold marked, markers. split.
    - intros (m & Hin & Hc). apply contains_spec in Hc as (pre & post & ->).
      exists m, pre, post. simpl in Hin. intuition congruence.
    - intros (m & pre & post & Hm & ->). exists m. split.
      + simpl. intuition congruence.
      + apply contains_app. }
  unfold select_dtype.
  destruct (existsb (fun x => contains x s) markers); simpl;
    intuition (try discriminate; auto).
Qed.

End RenameFacts.

(** ** The destination directory *)

Module PathFacts.
Import PyStr PyStrFacts PathLib Convert.

Lemma no_slash_cons c s :
  contains "/" (String c s) = false ->
  Ascii.eqb c "/" = false /\ contains "/" s = false.
Proof.
  intros [Hs Hc]%contains_false_cons. split; [|exact Hc].
  change (startswith "/" (String c s))
    with (if Ascii.eqb "/" c then true else false) in Hs.
  rewrite Ascii.eqb_sym. destruct (Ascii.eqb "/" c); congruence.
Qed.

Lemma split_no_slash s : contains "/" s = false -> split "/" s = [s].
Proof.
  induction s as [|c s IH]; intros H; [reflexivity|].
  apply no_slash_cons in H as [Hc Hs]. simpl. rewrite Hc, (IH Hs). reflexivity.
Qed.

Lemma leading_no_slash s : contains "/" s = false -> leading "/" s = 0%nat.
Proof.
  destruct s as [|c s]; intros H; [reflexivity|].
  apply no_slash_cons in H as [Hc _]. simpl. rewrite Hc. reflexivity.
Qed.

Lemma is_segment_true s : s <> "" -> s <> "." -> is_segment s = true.
Proof.
  intros H1 H2. unfold is_segment.
  destruct (String.eqb_spec s ""); [congruence|].
  destruct (String.eqb_spec s "."); [congruence|]. reflexivity.
Qed.

Lemma joinpath_one p s :
  contains "/" s = false -> s <> "" -> s <> "." -> p // s = p ++ [s].
Proof.
  intros Hs H1 H2. unfold joinpath, is_absolute, anchor, segments.
  rewrite (leading_no_slash s Hs), (split_no_slash s Hs).
  rewrite filter_cons, filter_nil, (is_segment_true s H1 H2).
  reflexivity.
Qed.

(** C5, as the code has it: for a key without ["/"] that is neither empty
    nor ["."], the destination is the directory of the model with one more
    segment, the key itself; its ["."] characters separate nothing. *)
Theorem foldername_flat (script_dir model_name key : string) :
  contains "/" key = false -> key <> "" -> key <> "." ->
  foldername script_dir model_name key =
  (Path script_dir // "converted" // model_name) ++ [key].
Proof. intros. unfold foldername. apply joinpath_one; assumption. Qed.

Lemma foldername_flat_witness :
  foldername "/home/u/Extra" "mamba-130m" "layers.0.mixer.in_proj.weight" =
  ["/"; "home"; "u"; "Extra"; "converted"; "mamba-130m";
   "layers.0.mixer.in_proj.weight"].
Proof.
  apply (foldername_flat "/home/u/Extra" "mamba-130m"
           "layers.0.mixer.in_proj.weight");
    [reflexivity | discriminate | discriminate].
Defined.

(** C5 as stated fails for a key with a ["/"]: [pathlib] splits it into
    nested directories; an empty key adds no segment at all. *)
Lemma foldername_nested :
  foldername "/home/u/Extra" "mamba-130m" "a/b.c" =
  ["/"; "home"; "u"; "Extra"; "converted"; "mamba-130m"; "a"; "b.c"] /\
  last (foldername "/home/u/Extra" "mamba-130m" "a/b.c") <> Some "a/b.c" /\
  foldername "/home/u/Extra" "mamba-130m" "" =
  Path "/home/u/Extra" // "converted" // "mamba-130m".
Proof. repeat split. discriminate. Qed.

End PathFacts.

(** ** Running statements *)

Module OsFacts.
Import PathLib Os.

Lemma bind_inv {A B} (c : io A) (k : A -> io B) w w' r :
  (c ≫= k) w = (w', r) ->
  (exists a w1, c w = (w1, Returned a) /\ k a w1 = (w', r)) \/
  (exists e, c w = (w', Raised e) /\ r = Raised e).
Proof.
  unfold mbind, io_bind, bind. destruct (c w) as [w1 [a|e]]; intros H.
  - left. eauto.
  - right. exists e. injection H as -> <-. auto.
Qed.

Lemma bind_returned {A B} (c : io A) (k : A -> io B) w w1 a :
  c w = (w1, Returned a) -> (c ≫= k) w = k a w1.
Proof. unfold mbind, io_bind, bind. intros ->. reflexivity. Qed.

Lemma bind_raised {A B} (c : io A) (k : A -> io B) w w1 e :
  c w = (w1, Raised e) -> (c ≫= k) w = (w1, Raised e).
Proof. unfold mbind, io_bind, bind. intros ->. reflexivity. Qed.

(** [makedirs] touches the directories on the way only. *)
Lemma makedirs_from_frame rest : forall done m m' r p,
  makedirs_from done rest m = (m', r) ->
  (length done + length rest < length p)%nat ->
  m' !! p = m !! p.
Proof.
  induction rest as [|seg rest IH]; intros done m m' r p H L; simpl in H.
  - congruence.
  - assert (Hne : done ++ [seg] ≠ p).
    { intros <-. rewrite length_app in L. simpl in L. lia. }
    assert (L' : (length (done ++ [seg]) + length rest < length p)%nat).
    { rewrite length_app. simpl in *. lia. }
    destruct (m !! (done ++ [seg])) as [[|c]|] eqn:E.
    + exact (IH _ _ _ _ _ H L').
    + congruence.
    + rewrite (IH _ _ _ _ _ H L'). apply lookup_insert_ne, Hne.
Qed.


(** With no file on the way down, [makedirs] returns. *)
Lemma makedirs_from_returns rest : forall done m,
  (forall p c, p `prefix_of` done ++ rest -> m !! p <> Some (File c)) ->
  exists m', makedirs_from done rest m = (m', Returned tt).
Proof.
  induction rest as [|seg rest IH]; intros done m H; simpl.
  - eauto.
  - assert (P : done ++ [seg] `prefix_of` done ++ seg :: rest).
    { exists rest. rewrite <- app_assoc. reflexivity. }
    destruct (m !! (done ++ [seg])) as [[|c]|] eqn:E.
    + apply IH. intros p c. rewrite <- app_assoc. apply H.
    + destruct (H _ c P E).
    + apply IH. intros p c Hp. rewrite <- app_assoc in Hp.
      rewrite lookup_insert. case_decide; [discriminate|]. apply H, Hp.
Qed.


Lemma makedirs_stdout p w w' r : makedirs p w = (w', r) -> stdout w' = stdout w.
Proof.
  unfold makedirs. destruct (makedirs_from [] p (fs w)) as [m r'].
  intros H. injection H as <- <-. reflexivity.
Qed.

Lemma write_file_inv p c w w' r :
  write_file p c w = (w', r) ->
  (r = Returned tt /\ fs w' = <[p := File c]> (fs w) /\ stdout w' = stdout w) \/
  (r = Raised IsADirectoryError /\ w' = w /\ fs w !! p = Some Dir).
Proof.
  unfold write_file. destruct (fs w !! p) as [[|c']|]; intros H;
    injection H as <- <-; auto.
Qed.

End OsFacts.

(** ** The bytes of an array *)

Module NumpyFacts.
Import Numpy.

Lemma le_bytes_length n x : length (le_bytes n x) = n.
Proof. revert x. induction n as [|n IH]; intros x; simpl; [|rewrite IH]; reflexivity. Qed.

Lemma item_bytes_length native n x : length (item_bytes native n x) = n.
Proof.
  destruct native; simpl; [|rewrite length_rev]; apply le_bytes_length.
Qed.


Section Chunks.
Context {A B : Type} (f : A -> list B) (n : nat).
Hypothesis f_length : forall x, length (f x) = n.

Lemma flat_map_length_const l : length (flat_map f l) = (length l * n)%nat.
Proof.
  induction l as [|x l IH]; [reflexivity|].
  simpl. rewrite length_app, f_length, IH. reflexivity.
Qed.

End Chunks.

Lemma tobytes_length native a :
  length (tobytes native a) = (length (nd_items a) * itemsize (nd_dtype a))%nat.
Proof. apply flat_map_length_const, item_bytes_length. Qed.


End NumpyFacts.

(** ** One tensor *)

Module ExportFacts.
Import PyStr PathLib Numpy Os Convert OsFacts NumpyFacts Samples.

Section OneTensor.
Variable script_dir : string.
Variable native : byteorder.

Let export := export_tensor script_dir native.
Let folder := foldername script_dir.

Lemma sibling_ne (p : path) : p ++ ["metadata.json"] ≠ p ++ ["weights.bin"].
Proof. intros H. apply app_inv_head in H. discriminate. Qed.

(** What a completed export leaves behind. *)
Lemma export_tensor_returned model_name key data w w' :
  export model_name key data w = (w', Returned tt) ->
  fs w' !! (folder model_name key ++ ["metadata.json"]) =
    Some (File (Text (metadata key data (select_dtype key)))) /\
  fs w' !! (folder model_name key ++ ["weights.bin"]) =
    Some (File (Binary (tobytes native (astype (select_dtype key) data)))) /\
  stdout w' = stdout w.
Proof.
  unfold export, folder, export_tensor. intros H.
  apply bind_inv in H as [(u1 & w1 & H1 & H)|(e & _ & ?)]; [|discriminate].
  apply bind_inv in H as [(u2 & w2 & H2 & H)|(e & _ & ?)]; [|discriminate].
  apply write_file_inv in H2 as [(_ & F2 & O2)|(? & _)]; [|discriminate].
  apply write_file_inv in H as [(_ & F3 & O3)|(? & _)]; [|discriminate].
  rewrite F3, F2. repeat split.
  - rewrite lookup_insert_ne by (apply not_eq_sym, sibling_ne).
    apply lookup_insert_eq.
  - apply lookup_insert_eq.
  - rewrite O3, O2. exact (makedirs_stdout _ _ _ _ H1).
Qed.



End OneTensor.


(** C2: after a completed export, [weights.bin] holds as many bytes as the
    product of the shape in [metadata.json], times 2 when [is16bit] is true
    and times 4 when it is false. *)
Theorem payload_length script_dir native model_name key data w w' :
  well_formed data ->
  export_tensor script_dir native model_name key data w = (w', Returned tt) ->
  exists (shape : list nat) (is16bit : bool) (payload : list Z),
    fs w' !! (foldername script_dir model_name key ++ ["metadata.json"]) =
      Some (File (Text (JObj
        [("key", JStr key);
         ("shape", JList (map (fun n => JInt (Z.of_nat n)) shape));
         ("is16bit", JBool is16bit)]))) /\
    fs w' !! (foldername script_dir model_name key ++ ["weights.bin"]) =
      Some (File (Binary payload)) /\
    length payload = (numel shape * (if is16bit then 2 else 4))%nat.
Proof.
  intros WF H. apply export_tensor_returned in H as (Hm & Hw & _).
  exists (t_shape data), (np_dtype_eqb (select_dtype key) f2),
    (tobytes native (astype (select_dtype key) data)).
  split; [exact Hm|]. split; [exact Hw|].
  rewrite tobytes_length. simpl. rewrite length_map, WF.
  destruct (select_dtype key); reflexivity.
Qed.

Lemma payload_length_witness :
  exists (shape : list nat) (is16bit : bool) (payload : list Z),
    fs (export_tensor "/home/u/Extra" little "mamba-130m" "embedding.weight"
          embedding_weight fresh).1
      !! (foldername "/home/u/Extra" "mamba-130m" "embedding.weight"
            ++ ["metadata.json"]) =
      Some (File (Text (JObj
        [("key", JStr "embedding.weight");
         ("shape", JList (map (fun n => JInt (Z.of_nat n)) shape));
         ("is16bit", JBool is16bit)]))) /\
    fs (export_tensor "/home/u/Extra" little "mamba-130m" "embedding.weight"
          embedding_weight fresh).1
      !! (foldername "/home/u/Extra" "mamba-130m" "embedding.weight"
            ++ ["weights.bin"]) =
      Some (File (Binary payload)) /\
    length payload = (numel shape * (if is16bit then 2 else 4))%nat.
Proof.
  apply (payload_length "/home/u/Extra" little "mamba-130m" "embedding.weight"
           embedding_weight fresh).
  - reflexivity.
  - vm_compute. reflexivity.
Defined.






End ExportFacts.

(** ** Renamed keys that collide *)

Module DissectFacts.
Import PyStr PyDict Numpy Os Convert Samples.

Section Dict.
Context {V : Type}.
Implicit Types (d : list (string * V)) (k : string) (v : V).

Lemma get_set k k' v d :
  get k (set k' v d) = if String.eqb k' k then Some v else get k d.
Proof.
  induction d as [|[k0 v0] d IH]; simpl.
  - reflexivity.
  - destruct (String.eqb_spec k0 k') as [->|N]; simpl.
    + destruct (String.eqb k' k); reflexivity.
    + rewrite IH. destruct (String.eqb_spec k0 k) as [->|]; [|reflexivity].
      destruct (String.eqb_spec k' k); [congruence|reflexivity].
Qed.

Lemma keys_set k v d :
  keys (set k v d) = if decide (k ∈ keys d) then keys d else keys d ++ [k].
Proof.
  unfold keys. induction d as [|[k0 v0] d IH]; simpl.
  - reflexivity.
  - destruct (String.eqb_spec k0 k) as [->|N]; simpl.
    + rewrite decide_True by (apply elem_of_cons; auto). reflexivity.
    + rewrite IH. destruct (decide (k ∈ map fst d)) as [I|I].
      * rewrite decide_True by (apply elem_of_cons; auto). reflexivity.
      * rewrite decide_False; [reflexivity|].
        intros [E|I']%elem_of_cons; [congruence|exact (I I')].
Qed.

End Dict.

Lemma rename_keys_snoc sd key t :
  rename_keys (sd ++ [(key, t)]) = set (new_key key) t (rename_keys sd).
Proof. unfold rename_keys. rewrite fold_left_app. reflexivity. Qed.






End DissectFacts.

(** ** The command line *)

Module MainFacts.
Import Numpy Os Convert OsFacts.

Section Main.
Variable script_dir : string.
Variable native : byteorder.
Variable load_state_dict_hf : string -> result (list (string * Tensor)).

Let main := main script_dir native load_state_dict_hf.
Let run := run script_dir native load_state_dict_hf.

(** C9, where the code goes wrong: called with the name of the script and
    nothing else, [main] passes the test [len(sys.argv) < 1], raises
    [IndexError] at [sys.argv[1]] and prints nothing; the status is 1. *)
Theorem no_argument_raises (script : string) (w : world) :
  main [script] w = (w, Raised IndexError) /\
  run [script] w = (w, 1%Z).
Proof. split; reflexivity. Qed.

(** The branch with the message is taken by an empty [sys.argv] only, and
    the value it returns is dropped: the status is 0. *)
Lemma usage_branch (w : world) :
  run [] w = ({| fs := fs w; stdout := stdout w ++ [usage] |}, 0%Z).
Proof. reflexivity. Qed.

(** A run in which nothing is raised ends with status 0. *)
Lemma returned_status_zero (argv : list string) (w w' : world) v :
  main argv w = (w', Returned v) -> run argv w = (w', 0%Z).
Proof. unfold run, Convert.run. fold main. intros ->. reflexivity. Qed.

End Main.
End MainFacts.

(** ** What [makedirs] does to the tree *)

Module TreeFacts.
Import PyStr PathLib Numpy Os Convert Layout OsFacts.

Lemma on_way_nil done q : ~ on_way done [] q.
Proof. intros (k & Hk & _). simpl in Hk. lia. Qed.

Lemma on_way_cons done seg rest q :
  on_way done (seg :: rest) q <->
  q = done ++ [seg] \/ on_way (done ++ [seg]) rest q.
Proof.
  split.
  - intros ([|k] & Hk & ->).
    + left. reflexivity.
    + right. exists k. simpl in Hk. split; [lia|].
      rewrite <- app_assoc. reflexivity.
  - intros [->|(k & Hk & ->)].
    + exists 0%nat. simpl. split; [lia|]. reflexivity.
    + exists (S k). simpl. split; [lia|]. rewrite <- app_assoc. reflexivity.
Qed.

Lemma on_way_length done rest q :
  on_way done rest q -> (length done < length q <= length done + length rest)%nat.
Proof.
  intros (k & Hk & ->). rewrite length_app, length_take. lia.
Qed.

Lemma on_way_prefix done rest q : on_way done rest q -> q `prefix_of` done ++ rest.
Proof.
  intros (k & _ & ->). exists (drop (S k) rest).
  rewrite <- app_assoc, take_drop. reflexivity.
Qed.

Lemma prefix_on_way rest q : q `prefix_of` rest -> q <> [] -> on_way [] rest q.
Proof.
  intros [t ->] Hq. destruct q as [|a q]; [congruence|].
  exists (length q). rewrite length_app. simpl. split; [lia|].
  change (S (length q)) with (length (a :: q)).
  rewrite take_app_length. reflexivity.
Qed.

(** Whatever the outcome, [makedirs] only adds directories, and only on its
    way. *)
Lemma makedirs_from_changes rest : forall done m m' r q,
  makedirs_from done rest m = (m', r) ->
  m' !! q = m !! q \/
  (m !! q = None /\ m' !! q = Some Dir /\ on_way done rest q).
Proof.
  induction rest as [|seg rest IH]; intros done m m' r q H; simpl in H.
  - left. congruence.
  - destruct (m !! (done ++ [seg])) as [[|c]|] eqn:E.
    + destruct (IH _ _ _ _ q H) as [->|(N & D & W)]; [auto|].
      right. split; [exact N|]. split; [exact D|]. apply on_way_cons. auto.
    + left. congruence.
    + destruct (IH _ _ _ _ q H) as [->|(N & D & W)].
      * rewrite lookup_insert. case_decide as Q; [|auto].
        subst q. right. split; [exact E|]. split; [reflexivity|].
        apply on_way_cons. auto.
      * rewrite lookup_insert in N. case_decide; [discriminate|].
        right. split; [exact N|]. split; [exact D|]. apply on_way_cons. auto.
Qed.

(** When [makedirs] returns, every directory on its way is there. *)
Lemma makedirs_from_made rest : forall done m m' q,
  makedirs_from done rest m = (m', Returned tt) ->
  on_way done rest q -> m' !! q = Some Dir.
Proof.
  induction rest as [|seg rest IH]; intros done m m' q H W.
  - destruct (on_way_nil _ _ W).
  - simpl in H. apply on_way_cons in W.
    assert (K : forall m1, m1 !! (done ++ [seg]) = Some Dir ->
                makedirs_from (done ++ [seg]) rest m1 = (m', Returned tt) ->
                m' !! q = Some Dir).
    { intros m1 D H1. destruct W as [->|W]; [|exact (IH _ _ _ _ H1 W)].
      destruct (makedirs_from_changes _ _ _ _ _ (done ++ [seg]) H1)
        as [->|(_ & D' & _)]; [exact D|exact D']. }
    destruct (m !! (done ++ [seg])) as [[|c]|] eqn:E.
    + exact (K m E H).
    + discriminate.
    + apply (K _ (lookup_insert_eq _ _ _) H).
Qed.

(** A file on the way stops [makedirs]. *)
Lemma makedirs_from_blocked rest : forall done m q c,
  on_way done rest q -> m !! q = Some (File c) ->
  exists m' e, makedirs_from done rest m = (m', Raised e) /\
    (e = FileExistsError \/ e = NotADirectoryError) /\
    ((exists t, t <> [] /\ done ++ rest = q ++ t) -> e = NotADirectoryError).
Proof.
  induction rest as [|seg rest IH]; intros done m q c W F.
  - destruct (on_way_nil _ _ W).
  - simpl. apply on_way_cons in W.
    assert (K : forall m1, m1 !! q = Some (File c) -> on_way (done ++ [seg]) rest q ->
                exists m' e, makedirs_from (done ++ [seg]) rest m1 = (m', Raised e) /\
                  (e = FileExistsError \/ e = NotADirectoryError) /\
                  ((exists t, t <> [] /\ done ++ seg :: rest = q ++ t) ->
                   e = NotADirectoryError)).
    { intros m1 F1 W1. destruct (IH _ _ _ _ W1 F1) as (m' & e & H & He & Hn).
      exists m', e. split; [exact H|]. split; [exact He|].
      intros (t & Ht & Eq). apply Hn. exists t. split; [exact Ht|].
      rewrite <- app_assoc. exact Eq. }
    destruct (m !! (done ++ [seg])) as [[|c']|] eqn:E.
    + destruct W as [->|W]; [unfold path in *; congruence|]. exact (K m F W).
    + exists m. destruct rest as [|seg' rest].
      * exists FileExistsError. split; [reflexivity|]. split; [auto|].
        intros (t & Ht & Eq). destruct W as [->|W]; [|destruct (on_way_nil _ _ W)].
        apply (f_equal length) in Eq. rewrite !length_app in Eq.
        destruct t; simpl in Eq; [congruence|lia].
      * exists NotADirectoryError. split; [reflexivity|]. split; auto.
    + destruct W as [->|W]; [unfold path in *; congruence|].
      apply K; [|exact W]. rewrite lookup_insert_ne; [exact F|].
      intros <-. unfold path in *; congruence.
Qed.

(** A file where the last directory should go, and none before it. *)
Lemma makedirs_from_leaf rest : forall done m c,
  rest <> [] ->
  m !! (done ++ rest) = Some (File c) ->
  (forall q c', on_way done rest q -> q <> done ++ rest -> m !! q <> Some (File c')) ->
  exists m', makedirs_from done rest m = (m', Raised FileExistsError).
Proof.
  induction rest as [|seg rest IH]; intros done m c Hne F H; [congruence|].
  simpl. destruct rest as [|seg' rest].
  - unfold path in *. rewrite F. eauto.
  - assert (P : done ++ [seg] <> done ++ seg :: seg' :: rest).
    { intros Eq%(f_equal length). rewrite !length_app in Eq. simpl in Eq. lia. }
    assert (K : forall m1, m1 !! ((done ++ [seg]) ++ seg' :: rest) = Some (File c) ->
                (forall q, q <> done ++ [seg] -> m1 !! q = m !! q) ->
                exists m', makedirs_from (done ++ [seg]) (seg' :: rest) m1
                           = (m', Raised FileExistsError)).
    { intros m1 F1 Same. apply (IH _ _ c); [discriminate|exact F1|].
      intros q c' W Q. rewrite Same.
      - apply H; [apply on_way_cons; auto|]. rewrite <- app_assoc in Q. exact Q.
      - intros ->. apply on_way_length in W. lia. }
    destruct (m !! (done ++ [seg])) as [[|c']|] eqn:E.
    + apply K; [rewrite <- app_assoc; exact F|auto].
    + destruct (H (done ++ [seg]) c'); [apply on_way_cons; auto|exact P|exact E].
    + apply K.
      * rewrite lookup_insert_ne by (rewrite <- app_assoc; exact P).
        rewrite <- app_assoc. exact F.
      * intros q Q. apply lookup_insert_ne. auto.
Qed.

(** Run again on its own result, [makedirs] returns and changes nothing. *)
Lemma makedirs_from_again rest : forall done m m',
  makedirs_from done rest m = (m', Returned tt) ->
  makedirs_from done rest m' = (m', Returned tt).
Proof.
  induction rest as [|seg rest IH]; intros done m m' H; [reflexivity|].
  assert (D : m' !! (done ++ [seg]) = Some Dir).
  { apply (makedirs_from_made _ _ _ _ _ H), on_way_cons. auto. }
  simpl in H |- *. rewrite D.
  destruct (m !! (done ++ [seg])) as [[|c]|]; [|discriminate|]; exact (IH _ _ _ H).
Qed.

End TreeFacts.

(** ** What one export does to the tree *)

Module ExportEffects.
Import PyStr PathLib Numpy Os Convert Layout Samples OsFacts TreeFacts ExportFacts.


Lemma write_file_returned p c w w' :
  write_file p c w = (w', Returned tt) ->
  fs w !! p <> Some Dir /\ w' = {| fs := <[p := File c]> (fs w); stdout := stdout w |}.
Proof.
  unfold write_file. destruct (fs w !! p) as [[|c']|]; intros H;
    try discriminate H; injection H as <-; split; congruence.
Qed.

Lemma write_file_raised p c w w' e :
  write_file p c w = (w', Raised e) ->
  e = IsADirectoryError /\ w' = w /\ fs w !! p = Some Dir.
Proof.
  unfold write_file. destruct (fs w !! p) as [[|c']|]; intros H;
    try discriminate H; injection H as <- <-; auto.
Qed.

(** Directories lie on the way to the folder, the two files one step below
    it. *)
Lemma file_not_on_way (p : path) (x : string) : ~ on_way [] p (p ++ [x]).
Proof.
  intros W%on_way_length. rewrite length_app in W. simpl in W. lia.
Qed.

Section OneTensor.
Variable script_dir : string.
Variable native : byteorder.
Variables model_name key : string.
Variable data : Tensor.

Let folder := foldername script_dir model_name key.
Let meta_path := folder ++ ["metadata.json"].
Let bin_path := folder ++ ["weights.bin"].
Let export := export_tensor script_dir native model_name key data.

(** The three steps of an export, by outcome. *)
Lemma export_tensor_steps w w' r :
  export w = (w', r) ->
  (exists e, makedirs folder w = (w', Raised e) /\ r = Raised e) \/
  (exists w1, makedirs folder w = (w1, Returned tt) /\
     ((r = Raised IsADirectoryError /\ w' = w1 /\ fs w1 !! meta_path = Some Dir) \/
      (fs w1 !! meta_path <> Some Dir /\
       let w2 := {| fs := <[meta_path := File (Text (metadata key data (select_dtype key)))]> (fs w1);
                    stdout := stdout w1 |} in
       ((r = Raised IsADirectoryError /\ w' = w2 /\ fs w1 !! bin_path = Some Dir) \/
        (r = Returned tt /\ fs w1 !! bin_path <> Some Dir /\
         w' = {| fs := <[bin_path := File (Binary (tobytes native (astype (select_dtype key) data)))]> (fs w2);
                 stdout := stdout w1 |}))))).
Proof.
  unfold export, export_tensor. fold folder. fold meta_path. fold bin_path.
  intros H.
  apply bind_inv in H as [([] & w1 & H1 & H)|(e & H1 & ->)]; [|left; eauto].
  right. exists w1. split; [exact H1|].
  apply bind_inv in H as [([] & w2 & H2 & H)|(e & H2 & ->)].
  - right. apply write_file_returned in H2 as [N2 ->]. split; [exact N2|].
    simpl. destruct r as [[]|e].
    + right. apply write_file_returned in H as [N3 ->]. simpl in *.
      rewrite lookup_insert_ne in N3 by apply sibling_ne. auto.
    + left. apply write_file_raised in H as (-> & -> & D). simpl in D.
      rewrite lookup_insert_ne in D by apply sibling_ne. auto.
  - left. apply write_file_raised in H2 as (-> & -> & D). auto.
Qed.


Lemma export_tensor_stdout w w' r : export w = (w', r) -> stdout w' = stdout w.
Proof.
  intros H.
  apply export_tensor_steps in H
    as [(e & M & _)|(w1 & M & [(_ & -> & _)|(N2 & [(_ & -> & _)|(_ & N3 & ->)])])];
    simpl; exact (makedirs_stdout _ _ _ _ M).
Qed.

(** After a completed export the directories on the way are there. *)
Lemma export_tensor_dirs w w' q :
  export w = (w', Returned tt) -> on_way [] folder q -> fs w' !! q = Some Dir.
Proof.
  intros H W.
  assert (N : forall x, q <> folder ++ [x]).
  { intros x ->. exact (file_not_on_way _ _ W). }
  apply export_tensor_steps in H
    as [(e & _ & ?)|(w1 & M & [(? & _)|(_ & [(? & _)|(_ & _ & ->)])])];
    try discriminate.
  simpl. rewrite !lookup_insert_ne by (apply not_eq_sym, N).
  unfold makedirs in M. destruct (makedirs_from [] folder (fs w)) as [m r] eqn:E.
  injection M as <- ->. simpl. exact (makedirs_from_made _ _ _ _ _ E W).
Qed.

End OneTensor.

(** When the directories on the way are all there, [makedirs] returns and
    changes nothing. *)
Lemma makedirs_from_present rest : forall done m,
  (forall q, on_way done rest q -> m !! q = Some Dir) ->
  makedirs_from done rest m = (m, Returned tt).
Proof.
  induction rest as [|seg rest IH]; intros done m H; [reflexivity|].
  assert (D : m !! (done ++ [seg]) = Some Dir) by (apply H, on_way_cons; auto).
  simpl. unfold path in *. rewrite D.
  apply IH. intros q W. apply H, on_way_cons. auto.
Qed.

End ExportEffects.

(** ** One export, seen from outside *)

Module ExportProperties.
Import PyStr PathLib Numpy Os Convert Layout Samples.
Import OsFacts TreeFacts ExportFacts ExportEffects.



(** X2: after a completed export the folder and every directory above it
    are there. *)
Theorem export_makes_directories script_dir native model_name key data w w' q :
  export_tensor script_dir native model_name key data w = (w', Returned tt) ->
  q `prefix_of` foldername script_dir model_name key -> q <> [] ->
  fs w' !! q = Some Dir.
Proof.
  intros H P Q. apply (export_tensor_dirs _ _ _ _ _ _ _ _ H).
  apply prefix_on_way; assumption.
Qed.

Lemma export_makes_directories_witness :
  fs (export_tensor "" little "mamba-130m" "norm.weight" counters fresh).1
    !! ["converted"; "mamba-130m"] = Some Dir.
Proof.
  apply (export_makes_directories "" little "mamba-130m" "norm.weight" counters fresh).
  - vm_compute. reflexivity.
  - exists ["norm.weight"]. reflexivity.
  - discriminate.
Defined.

(** X3: an export that has completed can be run again at once: it completes
    again and leaves the file system and the output as they are. *)
Theorem export_again script_dir native model_name key data w w' :
  export_tensor script_dir native model_name key data w = (w', Returned tt) ->
  export_tensor script_dir native model_name key data w' = (w', Returned tt).
Proof.
  intros H.
  pose proof (export_tensor_returned _ _ _ _ _ _ _ H) as (Hm & Hb & _).
  assert (M : makedirs (foldername script_dir model_name key) w' = (w', Returned tt)).
  { unfold makedirs.
    rewrite (makedirs_from_present (foldername script_dir model_name key) [] (fs w')).
    - destruct w'; reflexivity.
    - intros q W. exact (export_tensor_dirs _ _ _ _ _ _ _ _ H W). }
  unfold export_tensor.
  erewrite bind_returned by exact M.
  assert (W1 : forall p c, fs w' !! p = Some (File c) ->
                 write_file p c w' = (w', Returned tt)).
  { intros p c F. unfold write_file. rewrite F, (insert_id _ _ _ F).
    destruct w'; reflexivity. }
  erewrite bind_returned by (apply W1; exact Hm).
  apply W1. exact Hb.
Qed.

Lemma export_again_witness :
  export_tensor "" little "mamba-130m" "norm.weight" counters
    (export_tensor "" little "mamba-130m" "norm.weight" counters fresh).1 =
  ((export_tensor "" little "mamba-130m" "norm.weight" counters fresh).1, Returned tt).
Proof.
  apply (export_again "" little "mamba-130m" "norm.weight" counters fresh).
  vm_compute. reflexivity.
Defined.

(** X4: a file at the place of the folder or of a directory above it stops
    the export before anything is written: it raises [NotADirectoryError]
    when the file is above the folder, [FileExistsError] when it is at the
    folder with no file above, and the two files are as they were. *)
Theorem export_blocked_by_file script_dir native model_name key data w q c :
  q `prefix_of` foldername script_dir model_name key -> q <> [] ->
  fs w !! q = Some (File c) ->
  exists w' e,
    export_tensor script_dir native model_name key data w = (w', Raised e) /\
    (e = FileExistsError \/ e = NotADirectoryError) /\
    (q <> foldername script_dir model_name key -> e = NotADirectoryError) /\
    (q = foldername script_dir model_name key ->
     (forall q' c', q' `prefix_of` q -> q' <> q -> fs w !! q' <> Some (File c')) ->
     e = FileExistsError) /\
    stdout w' = stdout w /\
    forall x, fs w' !! (foldername script_dir model_name key ++ [x]) =
              fs w !! (foldername script_dir model_name key ++ [x]).
Proof.
  intros P Q F.
  destruct (makedirs_from_blocked _ [] (fs w) q c (prefix_on_way _ _ P Q) F)
    as (m' & e & M & He & Hn).
  exists {| fs := m'; stdout := stdout w |}, e.
  assert (R : export_tensor script_dir native model_name key data w =
              ({| fs := m'; stdout := stdout w |}, Raised e)).
  { unfold export_tensor. apply bind_raised. unfold makedirs. rewrite M. reflexivity. }
  split; [exact R|]. split; [exact He|]. split; [|split; [|split]].
  - intros N. apply Hn. destruct P as [t Pt]. exists t. split; [|exact Pt].
    intros ->. rewrite app_nil_r in Pt. congruence.
  - intros -> Above.
    destruct (makedirs_from_leaf (foldername script_dir model_name key) [] (fs w) c)
      as [m2 M2]; [exact Q|exact F| |].
    + intros q' c' W N. apply Above; [exact (on_way_prefix _ _ _ W)|exact N].
    + simpl in M2. unfold path in *. congruence.
  - reflexivity.
  - intros x. simpl. eapply makedirs_from_frame; [exact M|].
    rewrite length_app. simpl. lia.
Qed.

Lemma export_blocked_by_file_witness :
  (export_tensor "" little "mamba-130m" "norm.weight" counters blocked).2 =
  Raised NotADirectoryError.
Proof.
  destruct (export_blocked_by_file "" little "mamba-130m" "norm.weight" counters
              blocked ["converted"; "mamba-130m"] (Binary []))
    as (w' & e & R & _ & N & _).
  - exists ["norm.weight"]. reflexivity.
  - discriminate.
  - reflexivity.
  - rewrite R. simpl. f_equal. apply N. discriminate.
Defined.

(** X5: with the way to the folder free and a directory at the place of
    [weights.bin], the export raises [IsADirectoryError] after it has written
    [metadata.json]: the folder is left with the metadata alone. *)
Theorem export_directory_at_weights script_dir native model_name key data w :
  (forall q c, q `prefix_of` foldername script_dir model_name key ->
               fs w !! q <> Some (File c)) ->
  fs w !! (foldername script_dir model_name key ++ ["metadata.json"]) <> Some Dir ->
  fs w !! (foldername script_dir model_name key ++ ["weights.bin"]) = Some Dir ->
  exists w',
    export_tensor script_dir native model_name key data w
      = (w', Raised IsADirectoryError) /\
    fs w' !! (foldername script_dir model_name key ++ ["metadata.json"]) =
      Some (File (Text (metadata key data (select_dtype key)))) /\
    fs w' !! (foldername script_dir model_name key ++ ["weights.bin"]) = Some Dir.
Proof.
  intros Hp Hm Hb.
  destruct (makedirs_from_returns (foldername script_dir model_name key) [] (fs w) Hp)
    as [m M].
  assert (F : forall x, m !! (foldername script_dir model_name key ++ [x]) =
                        fs w !! (foldername script_dir model_name key ++ [x])).
  { intros x. eapply makedirs_from_frame; [exact M|].
    rewrite length_app. simpl. lia. }
  eexists. split; [|split].
  - unfold export_tensor.
    erewrite bind_returned; [|unfold makedirs; rewrite M; reflexivity].
    erewrite bind_returned.
    2:{ unfold write_file. simpl fs. rewrite F.
        destruct (fs w !! (foldername script_dir model_name key ++ ["metadata.json"]))
          as [[|c]|]; [congruence|reflexivity|reflexivity]. }
    unfold write_file. simpl fs.
    rewrite lookup_insert_ne by apply sibling_ne. rewrite F, Hb. reflexivity.
  - simpl. apply lookup_insert_eq.
  - simpl. rewrite lookup_insert_ne by apply sibling_ne. rewrite F. exact Hb.
Qed.

Lemma export_directory_at_weights_witness :
  exists w',
    export_tensor "" little "mamba-130m" "norm.weight" counters occupied
      = (w', Raised IsADirectoryError) /\
    fs w' !! (foldername "" "mamba-130m" "norm.weight" ++ ["metadata.json"]) =
      Some (File (Text (metadata "norm.weight" counters (select_dtype "norm.weight")))) /\
    fs w' !! (foldername "" "mamba-130m" "norm.weight" ++ ["weights.bin"]) = Some Dir.
Proof.
  apply (export_directory_at_weights "" little "mamba-130m" "norm.weight" counters
           occupied).
  - intros q c [t E]. vm_compute in E. unfold occupied. simpl.
    rewrite lookup_singleton. case_decide as Q; [|discriminate].
    subst q. discriminate E.
  - vm_compute. discriminate.
  - vm_compute. reflexivity.
Defined.

End ExportProperties.

(** ** The loops of [dissect] and [main] *)

Module LoopFacts.
Import PyStr PyDict PathLib Numpy Os Convert Layout.
Import PyStrFacts PathFacts OsFacts TreeFacts ExportFacts ExportEffects DissectFacts.

Lemma for_each_app {A} (xs ys : list A) (body : A -> io unit) w :
  for_each (xs ++ ys) body w = (for_each xs body ;; for_each ys body) w.
Proof.
  revert w. induction xs as [|x xs IH]; intros w; simpl.
  - reflexivity.
  - unfold mbind, io_bind, bind in *. destruct (body x w) as [w1 [[]|e]]; [|reflexivity].
    apply IH.
Qed.

(** A loop whose body prints nothing prints nothing. *)
Lemma for_each_stdout {A} (xs : list A) (body : A -> io unit) :
  (forall x w w' r, body x w = (w', r) -> stdout w' = stdout w) ->
  forall w w' r, for_each xs body w = (w', r) -> stdout w' = stdout w.
Proof.
  intros B. induction xs as [|x xs IH]; intros w w' r H; simpl in H.
  - injection H as <- _. reflexivity.
  - apply bind_inv in H as [([] & w1 & H1 & H)|(e & H1 & _)].
    + rewrite (IH _ _ _ H). exact (B _ _ _ _ H1).
    + exact (B _ _ _ _ H1).
Qed.

Section Dict.
Context {V : Type}.
Implicit Types (d : list (string * V)) (k : string) (v : V).

Lemma set_fresh k v d : k ∉ keys d -> set k v d = d ++ [(k, v)].
Proof.
  induction d as [|[k0 v0] d IH]; intros N; simpl; [reflexivity|].
  unfold keys in N. simpl in N. apply not_elem_of_cons in N as [N1 N2].
  destruct (String.eqb_spec k0 k); [congruence|]. rewrite IH by exact N2. reflexivity.
Qed.

Lemma set_length k v d : (length (set k v d) <= S (length d))%nat.
Proof.
  induction d as [|[k0 v0] d IH]; simpl; [lia|].
  destruct (String.eqb k0 k); simpl; lia.
Qed.

Lemma keys_set_elem k v d x : x ∈ keys (set k v d) <-> x = k \/ x ∈ keys d.
Proof.
  rewrite keys_set. case_decide as I.
  - split; [auto|]. intros [->|]; assumption.
  - rewrite elem_of_app, list_elem_of_singleton. tauto.
Qed.


Lemma elem_get k v d : NoDup (keys d) -> (k, v) ∈ d -> get k d = Some v.
Proof.
  induction d as [|[k0 v0] d IH]; intros N I; [inversion I|].
  unfold keys in N. simpl in N. apply NoDup_cons in N as [N1 N2]. simpl.
  apply elem_of_cons in I as [E|I].
  - injection E as -> ->. rewrite String.eqb_refl. reflexivity.
  - destruct (String.eqb_spec k0 k) as [->|]; [|exact (IH N2 I)].
    destruct N1. apply (list_elem_of_fmap_2 fst _ _ I).
Qed.
End Dict.

(** Without two names renamed alike, renaming goes entry by entry. *)
Lemma rename_keys_map sd :
  NoDup (map new_key (keys sd)) ->
  rename_keys sd = map (fun e => (new_key e.1, e.2)) sd.
Proof.
  induction sd as [|[key t] sd IH] using rev_ind; intros N; [reflexivity|].
  unfold keys in N. rewrite !map_app in N. simpl in N.
  apply NoDup_app in N as (N1 & N2 & _).
  rewrite rename_keys_snoc, map_app, IH by exact N1. simpl.
  apply set_fresh. intros I. apply (N2 (new_key key)).
  - unfold keys in I. rewrite map_map in I. simpl in I.
    rewrite <- map_map with (f := fst) (g := new_key) in I. exact I.
  - apply list_elem_of_here.
Qed.

Lemma rename_keys_length sd : (length (rename_keys sd) <= length sd)%nat.
Proof.
  induction sd as [|[key t] sd IH] using rev_ind; [simpl; lia|].
  rewrite rename_keys_snoc, length_app. simpl.
  pose proof (set_length (new_key key) t (rename_keys sd)). lia.
Qed.

Lemma rename_keys_elem sd k :
  k ∈ keys (rename_keys sd) <-> exists k0, k0 ∈ keys sd /\ new_key k0 = k.
Proof.
  induction sd as [|[key t] sd IH] using rev_ind.
  - split; [intros []%elem_of_nil|intros (k0 & []%elem_of_nil & _)].
  - rewrite rename_keys_snoc, keys_set_elem, IH. unfold keys. rewrite map_app.
    split.
    + intros [->|(k0 & I & E)].
      * exists key. split; [|reflexivity]. apply elem_of_app. right.
        apply list_elem_of_here.
      * exists k0. split; [|exact E]. apply elem_of_app. auto.
    + intros (k0 & [I|I%list_elem_of_singleton]%elem_of_app & E).
      * right. eauto.
      * left. simpl in I. congruence.
Qed.

Lemma rename_keys_value sd k t :
  get k (rename_keys sd) = Some t -> exists k0, (k0, t) ∈ sd /\ new_key k0 = k.
Proof.
  induction sd as [|[key t0] sd IH] using rev_ind; [discriminate|].
  rewrite rename_keys_snoc, get_set.
  destruct (String.eqb_spec (new_key key) k) as [E|]; intros H.
  - injection H as ->. exists key. split; [|exact E].
    apply elem_of_app. right. apply list_elem_of_here.
  - destruct (IH H) as (k0 & I & E). exists k0. split; [|exact E].
    apply elem_of_app. auto.
Qed.

End LoopFacts.

(** ** A whole run *)

Module RunFacts.
Import PyStr PyDict PathLib Numpy Os Convert Layout.
Import PyStrFacts PathFacts OsFacts TreeFacts ExportFacts ExportEffects DissectFacts LoopFacts.

Section Run.
Variable script_dir : string.
Variable native : byteorder.
Variable model_name : string.

Let body : string * Tensor -> io unit :=
  fun '(key, data) => export_tensor script_dir native model_name key data.









End Run.
End RunFacts.

(** ** [dissect] and [main], seen from outside *)

Module RunProperties.
Import PyStr PyDict PathLib Numpy Os Convert Layout Samples.
Import PyStrFacts PathFacts OsFacts TreeFacts ExportFacts ExportEffects.
Import DissectFacts LoopFacts RunFacts.

Section Run.
Variable script_dir : string.
Variable native : byteorder.
Variable load_state_dict_hf : string -> result (list (string * Tensor)).

Let main := main script_dir native load_state_dict_hf.
Let run := run script_dir native load_state_dict_hf.
Let dissect := dissect load_state_dict_hf.

(** With a second item in [sys.argv] the run prints its line, loads the
    model and goes through the dictionary. *)
Lemma main_with_argument script model rest w :
  main (script :: model :: rest) w =
  (state_dict ← dissect ("state-spaces/" +:+ model) ;
   for_each state_dict
     (fun '(key, data) => export_tensor script_dir native model key data) ;;
   mret None)
    {| fs := fs w; stdout := stdout w ++ ["Model to convert: " +:+ model] |}.
Proof. reflexivity. Qed.

Lemma main_loaded script model rest sd w :
  load_state_dict_hf ("state-spaces/" +:+ model) = Returned sd ->
  main (script :: model :: rest) w =
  (for_each (rename_keys sd)
     (fun '(key, data) => export_tensor script_dir native model key data) ;;
   mret None)
    {| fs := fs w; stdout := stdout w ++ ["Model to convert: " +:+ model] |}.
Proof.
  intros L. rewrite main_with_argument. unfold dissect, Convert.dissect. rewrite L.
  reflexivity.
Qed.

Lemma run_status argv w : (run argv w).2 = match (main argv w).2 with
                                          | Returned _ => 0%Z
                                          | Raised _ => 1%Z
                                          end.
Proof.
  unfold run, Convert.run. fold main. destruct (main argv w) as [w' [v|e]]; reflexivity.
Qed.

(** X6: when no two names of the checkpoint are renamed alike, [dissect]
    returns the entries in their order, each with its renamed key and its
    own tensor, and leaves the world alone. *)
Theorem dissect_without_collision name sd w :
  load_state_dict_hf name = Returned sd ->
  NoDup (map new_key (keys sd)) ->
  dissect name w = (w, Returned (map (fun e => (new_key e.1, e.2)) sd)).
Proof.
  intros L N. unfold dissect, Convert.dissect. rewrite L, (rename_keys_map sd N).
  reflexivity.
Qed.

(** X7: the dictionary that [dissect] returns has no more entries than the
    checkpoint; its keys are exactly the renamed names of the checkpoint,
    and each tensor in it is the tensor of a name renamed to its key. *)
Theorem dissect_keys name sd w :
  load_state_dict_hf name = Returned sd ->
  exists d,
    dissect name w = (w, Returned d) /\
    (length d <= length sd)%nat /\
    (forall k, k ∈ keys d <-> exists k0, k0 ∈ keys sd /\ new_key k0 = k) /\
    (forall k t, get k d = Some t -> exists k0, (k0, t) ∈ sd /\ new_key k0 = k).
Proof.
  intros L. exists (rename_keys sd). unfold dissect, Convert.dissect. rewrite L.
  split; [reflexivity|]. split; [apply rename_keys_length|].
  split; [apply rename_keys_elem|apply rename_keys_value].
Qed.

(** X8: when the model cannot be loaded, the run has printed its one line,
    raises what the loader raised, ends with status 1 and has written
    nothing. *)
Theorem load_failure_writes_nothing script model rest e w :
  load_state_dict_hf ("state-spaces/" +:+ model) = Raised e ->
  main (script :: model :: rest) w =
    ({| fs := fs w; stdout := stdout w ++ ["Model to convert: " +:+ model] |},
     Raised e) /\
  (run (script :: model :: rest) w).2 = 1%Z.
Proof.
  intros L.
  assert (M : main (script :: model :: rest) w =
              ({| fs := fs w; stdout := stdout w ++ ["Model to convert: " +:+ model] |},
               Raised e)).
  { rewrite main_with_argument. unfold dissect, Convert.dissect. rewrite L.
    reflexivity. }
  split; [exact M|]. rewrite run_status, M. reflexivity.
Qed.

(** X9: whatever happens after it, a run with a second item in [sys.argv]
    prints the line that names the model and nothing more. *)
Theorem run_prints_one_line script model rest w w' r :
  main (script :: model :: rest) w = (w', r) ->
  stdout w' = stdout w ++ ["Model to convert: " +:+ model].
Proof.
  rewrite main_with_argument. unfold dissect, Convert.dissect.
  destruct (load_state_dict_hf ("state-spaces/" +:+ model)) as [sd|e]; intros H.
  - apply bind_inv in H as [(sd' & w1 & H1 & H)|(e & H1 & _)];
      [|discriminate H1].
    injection H1 as <- <-.
    assert (S : forall w2 r2,
              for_each (rename_keys sd)
                (fun '(key, data) => export_tensor script_dir native model key data)
                {| fs := fs w; stdout := stdout w ++ ["Model to convert: " +:+ model] |}
              = (w2, r2) ->
              stdout w2 = stdout w ++ ["Model to convert: " +:+ model]).
    { intros w2 r2 F. apply for_each_stdout in F; [exact F|].
      intros [key data] wa wb rb B.
      exact (export_tensor_stdout _ _ _ _ _ _ _ _ B). }
    apply bind_inv in H as [([] & w2 & H2 & H)|(e & H2 & _)].
    + injection H as <- _. exact (S _ _ H2).
    + exact (S _ _ H2).
  - injection H as <- _. reflexivity.
Qed.

(** X10: the loop of [main] stops at the first export that raises: the run
    raises the same exception, ends with status 1, and the world is the one
    that export left, so no later tensor is written. *)
Theorem first_failure_stops script model rest sd d1 key data d2 w w1 w2 e :
  load_state_dict_hf ("state-spaces/" +:+ model) = Returned sd ->
  rename_keys sd = d1 ++ (key, data) :: d2 ->
  for_each d1 (fun '(key, data) => export_tensor script_dir native model key data)
    {| fs := fs w; stdout := stdout w ++ ["Model to convert: " +:+ model] |}
    = (w1, Returned tt) ->
  export_tensor script_dir native model key data w1 = (w2, Raised e) ->
  main (script :: model :: rest) w = (w2, Raised e) /\
  (run (script :: model :: rest) w).2 = 1%Z.
Proof.
  intros L R H1 H2.
  assert (M : main (script :: model :: rest) w = (w2, Raised e)).
  { rewrite (main_loaded _ _ _ _ _ L), R.
    apply bind_raised. rewrite for_each_app.
    erewrite bind_returned by exact H1.
    simpl. apply bind_raised. exact H2. }
  split; [exact M|]. rewrite run_status, M. reflexivity.
Qed.



End Run.


Lemma dissect_without_collision_witness :
  dissect checkpoint "state-spaces/mamba-130m" fresh =
  (fresh, Returned [("embedding.weight", embedding_weight);
                    ("norm_f.weight", embedding_weight);
                    ("lm_head.weight", counters)]).
Proof.
  apply (dissect_without_collision checkpoint "state-spaces/mamba-130m"
           [("backbone.embedding.weight", embedding_weight);
            ("backbone.norm_f.weight", embedding_weight);
            ("lm_head.weight", counters)] fresh).
  - reflexivity.
  - apply (bool_decide_unpack _). vm_compute. exact I.
Defined.

Lemma dissect_keys_witness :
  exists d,
    dissect colliding "state-spaces/mamba-130m" fresh = (fresh, Returned d) /\
    (length d <= 2)%nat /\
    (forall k, k ∈ keys d <->
       exists k0, k0 ∈ ["backbone.norm_f.weight"; "norm_f.weight"] /\ new_key k0 = k) /\
    (forall k t, get k d = Some t ->
       exists k0, (k0, t) ∈ [("backbone.norm_f.weight", embedding_weight);
                              ("norm_f.weight", counters)] /\ new_key k0 = k).
Proof.
  apply (dissect_keys colliding "state-spaces/mamba-130m"
           [("backbone.norm_f.weight", embedding_weight);
            ("norm_f.weight", counters)] fresh).
  reflexivity.
Defined.

Lemma load_failure_writes_nothing_witness :
  main "" little missing ["convert.py"; "mamba-130m"] fresh =
    ({| fs := ∅; stdout := ["Model to convert: mamba-130m"] |}, Raised LoadError) /\
  (run "" little missing ["convert.py"; "mamba-130m"] fresh).2 = 1%Z.
Proof.
  apply (load_failure_writes_nothing "" little missing "convert.py" "mamba-130m" []).
  reflexivity.
Defined.

Lemma run_prints_one_line_witness :
  stdout (main "" little checkpoint ["convert.py"; "mamba-130m"] half_blocked).1 =
  ["Model to convert: mamba-130m"].
Proof.
  apply (run_prints_one_line "" little checkpoint "convert.py" "mamba-130m" []
           half_blocked _
           (main "" little checkpoint ["convert.py"; "mamba-130m"] half_blocked).2).
  vm_compute. reflexivity.
Defined.

Lemma first_failure_stops_witness :
  (main "" little checkpoint ["convert.py"; "mamba-130m"] half_blocked).2 =
    Raised FileExistsError /\
  fs (main "" little checkpoint ["convert.py"; "mamba-130m"] half_blocked).1
    !! ["converted"; "mamba-130m"; "lm_head.weight"] = None.
Proof.
  destruct (first_failure_stops "" little checkpoint "convert.py" "mamba-130m" []
              [("backbone.embedding.weight", embedding_weight);
               ("backbone.norm_f.weight", embedding_weight);
               ("lm_head.weight", counters)]
              [("embedding.weight", embedding_weight)]
              "norm_f.weight" embedding_weight
              [("lm_head.weight", counters)]
              half_blocked
              (export_tensor "" little "mamba-130m" "embedding.weight" embedding_weight
                 {| fs := fs half_blocked;
                    stdout := ["Model to convert: mamba-130m"] |}).1
              (export_tensor "" little "mamba-130m" "norm_f.weight" embedding_weight
                 (export_tensor "" little "mamba-130m" "embedding.weight"
                    embedding_weight
                    {| fs := fs half_blocked;
                       stdout := ["Model to convert: mamba-130m"] |}).1).1
              FileExistsError) as [M _].
  - reflexivity.
  - reflexivity.
  - vm_compute. reflexivity.
  - vm_compute. reflexivity.
  - rewrite M. split; [reflexivity|]. vm_compute. reflexivity.
Defined.


End RunProperties.

(** ** Keys and folders *)

Module KeyProperties.
Import PyStr PyStrFacts RenameFacts PathLib PathFacts Convert Layout.

Lemma anchor_parts s : Forall proper_part (anchor s).
Proof.
  unfold anchor, proper_part.
  destruct (leading "/" s) as [|[|[|k]]];
    repeat (apply Forall_cons; split); try apply Forall_nil; auto.
Qed.

Lemma split_parts s : Forall (fun x => contains "/" x = false) (split "/" s).
Proof.
  induction s as [|c s IH]; [repeat constructor|].
  simpl. destruct (Ascii.eqb c "/") eqn:E.
  - constructor; [reflexivity|exact IH].
  - destruct (split "/" s) as [|w ws]; [repeat constructor|].
    + change (contains "/" (String c "")) with
        ((if Ascii.eqb "/" c then true else false) || false).
      rewrite Ascii.eqb_sym, E. reflexivity.
    + apply Forall_cons in IH as [Hw Hws]. constructor; [|exact Hws].
      rewrite contains_cons.
      change (startswith "/" (String c w))
        with (if Ascii.eqb "/" c then true else false).
      rewrite Ascii.eqb_sym, E. exact Hw.
Qed.

Lemma is_segment_inv s : is_segment s = true -> s <> "" /\ s <> ".".
Proof.
  unfold is_segment.
  destruct (String.eqb_spec s ""), (String.eqb_spec s "."); simpl;
    intros H; try discriminate H; auto.
Qed.

Lemma segments_parts s : Forall proper_part (segments s).
Proof.
  apply Forall_forall. intros x [Hx I]%list_elem_of_filter.
  pose proof (split_parts s) as F. rewrite Forall_forall in F.
  right. right. split; [exact (F _ I)|]. apply is_segment_inv, Hx.
Qed.

Lemma Path_parts s : Forall proper_part (Path s).
Proof. apply Forall_app. split; [apply anchor_parts|apply segments_parts]. Qed.

Lemma joinpath_parts p s : Forall proper_part p -> Forall proper_part (p // s).
Proof.
  intros H. unfold joinpath. destruct (is_absolute s); [apply Path_parts|].
  apply Forall_app. split; [exact H|apply segments_parts].
Qed.


(** X13: a name comes out of the renaming of [dissect] unchanged exactly
    when no ["backbone."] occurs in it, and the renaming never makes a name
    longer. *)
Theorem new_key_fixed_iff (n : string) :
  (new_key n = n <-> contains "backbone." n = false) /\
  (String.length (new_key n) <= String.length n)%nat.
Proof.
  split; [split|].
  - intros H. destruct (contains "backbone." n) eqn:E; [|reflexivity].
    apply new_key_shorter in E. rewrite H in E. lia.
  - apply new_key_absent.
  - apply replace_from_length.
Qed.



(** X15: whatever the directory of the script, the name of the model and
    the key are, every part of the folder is an anchor (["/"] or ["//"]) or
    a segment that holds no ["/"] and is neither empty nor ["."]: the
    script makes no directory with a separator in its name, and a [".."] in
    a key is kept as a segment. *)
Theorem foldername_parts (script_dir model_name key : string) :
  Forall proper_part (foldername script_dir model_name key) /\
  foldername script_dir model_name (".." +:+ "/" +:+ key) =
    (Path script_dir // "converted" // model_name) ++ ".." :: segments key.
Proof.
  split.
  - unfold foldername. do 3 apply joinpath_parts. apply Path_parts.
  - reflexivity.
Qed.

End KeyProperties.

(** ** What the payload holds *)

Module PayloadProperties.
Import Numpy NumpyFacts.

Local Open Scope Z_scope.

Lemma le_bytes_range n : forall x, Forall (fun b => 0 <= b < 256) (le_bytes n x).
Proof.
  induction n as [|n IH]; intros x; simpl; constructor; [|apply IH].
  change 255 with (Z.ones 8). rewrite Z.land_ones by lia.
  apply Z.mod_pos_bound. lia.
Qed.

Lemma item_bytes_range native n x :
  Forall (fun b => 0 <= b < 256) (item_bytes native n x).
Proof.
  destruct native; simpl; [|apply Forall_rev]; apply le_bytes_range.
Qed.

Lemma rne_shift_nonneg m k : 0 <= m -> 0 <= rne_shift m k.
Proof.
  intros H. unfold rne_shift.
  pose proof (proj2 (Z.shiftr_nonneg m k) H).
  repeat match goal with |- context [if ?b then _ else _] => destruct b end; lia.
Qed.

Lemma round_magnitude_range d m e :
  0 <= round_magnitude d m e <= inf_bits d.
Proof.
  unfold round_magnitude. destruct (Z.leb_spec m 0) as [L|L].
  - destruct d; vm_compute; split; discriminate.
  - cbv zeta. split; [|apply Z.le_min_r].
    apply Z.min_glb; [|destruct d; vm_compute; discriminate].
    assert (M : 0 <= (if Z.max (e + Z.log2 m) (emin d) - (prec d - 1) <=? e
                      then Z.shiftl m (e - (Z.max (e + Z.log2 m) (emin d) - (prec d - 1)))
                      else rne_shift m (Z.max (e + Z.log2 m) (emin d) - (prec d - 1) - e))).
    { destruct (_ <=? e); [apply Z.shiftl_nonneg|apply rne_shift_nonneg]; lia. }
    assert (P : 0 < 2 ^ (prec d - 1)) by (destruct d; reflexivity).
    pose proof (Z.le_max_r (e + Z.log2 m) (emin d)). nia.
Qed.

Lemma format_bounds d :
  0 <= inf_bits d /\
  0 < 2 ^ (prec d - 2) /\
  inf_bits d + 2 ^ (prec d - 2) < 2 ^ (ebits d + prec d - 1) /\
  2 * 2 ^ (ebits d + prec d - 1) = 2 ^ (8 * Z.of_nat (itemsize d)).
Proof.
  destruct d; vm_compute; repeat split; intros H; discriminate H.
Qed.

Lemma cast_range d x : 0 <= cast d x < 2 ^ (8 * Z.of_nat (itemsize d)).
Proof.
  pose proof (format_bounds d) as (I0 & I1 & I2 & I3).
  rewrite <- I3. unfold cast, sign_bit.
  generalize dependent (2 ^ (ebits d + prec d - 1)). intros S I2.
  destruct x as [neg m e|neg|].
  - pose proof (round_magnitude_range d m e). destruct neg; lia.
  - destruct neg; lia.
  - lia.
Qed.

Lemma le_bytes_inj n : forall x y,
  0 <= x < 2 ^ (8 * Z.of_nat n) -> 0 <= y < 2 ^ (8 * Z.of_nat n) ->
  le_bytes n x = le_bytes n y -> x = y.
Proof.
  induction n as [|n IH]; intros x y Hx Hy E.
  - change (2 ^ (8 * Z.of_nat 0)) with 1 in *. lia.
  - simpl in E. injection E as E0 E1.
    replace (8 * Z.of_nat (S n)) with (8 + 8 * Z.of_nat n) in * by lia.
    rewrite Z.pow_add_r in Hx, Hy by lia. change (2 ^ 8) with 256 in *.
    change 255 with (Z.ones 8) in E0. rewrite !Z.land_ones in E0 by lia.
    rewrite !Z.shiftr_div_pow2 in E1 by lia. change (2 ^ 8) with 256 in *.
    apply IH in E1.
    + rewrite (Z.div_mod x 256), (Z.div_mod y 256) by lia. congruence.
    + split; [apply Z.div_pos; lia|apply Z.div_lt_upper_bound; lia].
    + split; [apply Z.div_pos; lia|apply Z.div_lt_upper_bound; lia].
Qed.

Lemma item_bytes_inj native n x y :
  0 <= x < 2 ^ (8 * Z.of_nat n) -> 0 <= y < 2 ^ (8 * Z.of_nat n) ->
  item_bytes native n x = item_bytes native n y -> x = y.
Proof.
  intros Hx Hy E. destruct native; simpl in E; [|apply rev_inj in E];
    exact (le_bytes_inj n x y Hx Hy E).
Qed.

Lemma items_of_bytes native n : forall l k : list Z,
  (0 < n)%nat ->
  Forall (fun x => 0 <= x < 2 ^ (8 * Z.of_nat n)) l ->
  Forall (fun x => 0 <= x < 2 ^ (8 * Z.of_nat n)) k ->
  flat_map (item_bytes native n) l = flat_map (item_bytes native n) k ->
  l = k.
Proof.
  induction l as [|x l IH]; intros [|y k] N Fl Fk E; simpl in E.
  - reflexivity.
  - apply (f_equal length) in E. rewrite length_app, item_bytes_length in E.
    simpl in E. lia.
  - apply (f_equal length) in E. rewrite length_app, item_bytes_length in E.
    simpl in E. lia.
  - apply Forall_cons in Fl as [Hx Fl]. apply Forall_cons in Fk as [Hy Fk].
    apply app_inj_1 in E as [E1 E2]; [|rewrite !item_bytes_length; reflexivity].
    f_equal; [exact (item_bytes_inj native n x y Hx Hy E1)|].
    exact (IH k N Fl Fk E2).
Qed.

Lemma astype_items_range dtype data :
  Forall (fun x => 0 <= x < 2 ^ (8 * Z.of_nat (itemsize dtype)))
         (nd_items (astype dtype data)).
Proof.
  simpl. apply Forall_forall. intros x I.
  apply list_elem_of_fmap in I as (s & -> & _). apply cast_range.
Qed.

(** X16: the cast of every element fits the item size of the type chosen
    (2 bytes for ['f2'], 4 for ['f4']), and what [tobytes] hands to the
    file is a string of bytes: every value lies between 0 and 255. *)
Theorem payload_is_bytes native dtype data :
  Forall (fun x => 0 <= x < 2 ^ (8 * Z.of_nat (itemsize dtype)))
         (nd_items (astype dtype data)) /\
  Forall (fun b => 0 <= b < 256) (tobytes native (astype dtype data)).
Proof.
  split; [apply astype_items_range|].
  unfold tobytes. apply Forall_flat_map, Forall_forall.
  intros x _. apply item_bytes_range.
Qed.

(** X17: the payload loses nothing of the converted array: two tensors
    converted to the same type with the same bytes in [weights.bin] have
    the same number of elements and the same bit pattern in every
    element. *)
Theorem payload_determines_items native dtype (a b : Tensor) :
  tobytes native (astype dtype a) = tobytes native (astype dtype b) ->
  nd_items (astype dtype a) = nd_items (astype dtype b) /\
  length (t_data a) = length (t_data b).
Proof.
  intros E.
  assert (I : nd_items (astype dtype a) = nd_items (astype dtype b)).
  { apply (items_of_bytes native (itemsize dtype)).
    - destruct dtype; simpl; lia.
    - apply astype_items_range.
    - apply astype_items_range.
    - exact E. }
  split; [exact I|].
  apply (f_equal length) in I. simpl in I. rewrite !length_map in I. exact I.
Qed.

Lemma payload_determines_items_witness :
  nd_items (astype f4 {| t_dtype := int64; t_shape := [1%nat];
                         t_data := [Finite false 16777217 0] |}) =
  nd_items (astype f4 {| t_dtype := float32; t_shape := [1%nat];
                         t_data := [Finite false 1 24] |}) /\
  length [Finite false 16777217 0] = length [Finite false 1 24].
Proof.
  apply (payload_determines_items little f4
           {| t_dtype := int64; t_shape := [1%nat];
              t_data := [Finite false 16777217 0] |}
           {| t_dtype := float32; t_shape := [1%nat];
              t_data := [Finite false 1 24] |}).
  vm_compute. reflexivity.
Defined.

End PayloadProperties.
